(** * The pr-agent MCP server (starter/server.py)

    A shallow embedding of the three tools of the server,
    [analyze_file_changes], [get_pr_templates] and [suggest_template],
    together with the two tables they consult, and the properties of
    their results.

    Python values are modelled as follows.
    - [str] is [string]: a sequence of code points below 256 (ASCII and
      Latin-1).  On that range [lower], [strip] and [splitlines] follow
      CPython's [str.lower], [str.strip] and [str.splitlines].
    - [int] is [Z]; [bool] is [bool]; [Optional[str]] is [option string].
    - the dictionaries and lists handed to [json.dumps] are values of
      [json]; a dictionary keeps its insertion order.
    - an exception is a value of [exn]; code that may raise lives in the
      monad [M], which also records every call made to the outside
      world (session, process, file system) in a trace. *)

From Stdlib Require Import ZArith NArith String Ascii List Bool Lia DecimalString.
Import ListNotations.
Open Scope string_scope.

(** ** Python strings *)

Module Py.

Definition LF : ascii := "010"%char.
Definition CR : ascii := "013"%char.

Definition code (c : ascii) : N := N_of_ascii c.

Definition between (lo hi : N) (c : ascii) : bool :=
  ((lo <=? code c) && (code c <=? hi))%N.

(** [str.isspace] on one code point: TAB..CR, FS..US, SPACE, NEL, NBSP. *)
Definition isspace (c : ascii) : bool :=
  between 9 13 c || between 28 32 c || (code c =? 133)%N || (code c =? 160)%N.

(** Upper-case code points: A..Z and the Latin-1 capitals (not the
    multiplication sign). *)
Definition isupper (c : ascii) : bool :=
  between 65 90 c || between 192 214 c || between 216 222 c.

Definition to_lower (c : ascii) : ascii :=
  if isupper c then ascii_of_N (code c + 32) else c.

(** [s.lower()] *)
Fixpoint lower (s : string) : string :=
  match s with
  | EmptyString => EmptyString
  | String c s' => String (to_lower c) (lower s')
  end.

(** [s.lstrip()] *)
Fixpoint lstrip (s : string) : string :=
  match s with
  | EmptyString => EmptyString
  | String c s' => if isspace c then lstrip s' else s
  end.

(** [s.rstrip()] *)
Fixpoint rstrip (s : string) : string :=
  match s with
  | EmptyString => EmptyString
  | String c s' =>
      match rstrip s' with
      | EmptyString => if isspace c then EmptyString else String c EmptyString
      | r => String c r
      end
  end.

(** [s.strip()] *)
Definition strip (s : string) : string := rstrip (lstrip s).

(** The line boundaries of [str.splitlines]: LF, VT, FF, CR, FS, GS, RS
    and NEL; CR LF counts as one boundary. *)
Definition islinebreak (c : ascii) : bool :=
  between 10 13 c || between 28 30 c || (code c =? 133)%N.

(** [s.splitlines()]: the lines without their terminators; a final
    terminator does not open an empty last line. *)
Fixpoint splitlines (s : string) : list string :=
  match s with
  | EmptyString => []
  | String c s' =>
      if islinebreak c then
        EmptyString ::
          match s' with
          | String c' s'' =>
              if (Ascii.eqb c CR && Ascii.eqb c' LF)%bool
              then splitlines s'' else splitlines s'
          | EmptyString => []
          end
      else
        match splitlines s' with
        | [] => [String c EmptyString]
        | l :: ls => String c l :: ls
        end
  end.

(** [sep.join(xs)] *)
Definition join (sep : string) (xs : list string) : string :=
  String.concat sep xs.

(** [str(n)] and [f"{n}"] for an [int]. *)
Definition str_of_int (n : Z) : string :=
  NilZero.string_of_int (Z.to_int n).

(** [xs[:stop]], with CPython's adjustment of a negative or too large
    bound. *)
Definition slice_to {A : Type} (stop : Z) (xs : list A) : list A :=
  let len := Z.of_nat (length xs) in
  let stop' :=
    if (stop <? 0)%Z
    then (if (stop + len <? 0)%Z then 0%Z else (stop + len)%Z)
    else (if (len <=? stop)%Z then len else stop) in
  firstn (Z.to_nat stop') xs.

(** Truthiness of an [Optional[str]]: [None] and the empty string are
    false. *)
Definition truthy (o : option string) : bool :=
  match o with
  | Some s => negb (String.eqb s EmptyString)
  | None => false
  end.

(** [d.get(key, default)] on a dictionary kept as an association list. *)
Fixpoint dict_get {V : Type} (d : list (string * V)) (key : string) (default : V) : V :=
  match d with
  | [] => default
  | (k, v) :: d' => if String.eqb k key then v else dict_get d' key default
  end.

End Py.

(** ** JSON values, exceptions and the monad of tool code *)

#[warning="-register-all"]
Inductive json : Type :=
| JNull
| JBool (b : bool)
| JInt (n : Z)
| JStr (s : string)
| JList (xs : list json)
| JDict (items : list (string * json)).

(** The text produced by [json.dumps].  The serializer and the parser are
    the standard library's: a document is identified with the value it
    encodes, so that [json.loads (json.dumps v)] is [v]. *)
Record document : Type := Document { parsed : json }.

Definition json_dumps (v : json) : document := Document v.
Definition json_loads (d : document) : json := parsed d.

(** An instance of [Exception]; [str e] is its message. *)
Inductive exn : Type := Exception (msg : string).

Definition str (e : exn) : string :=
  match e with Exception msg => msg end.

Record CompletedProcess : Type := mkCompleted {
  returncode : Z;
  stdout : string;
  stderr : string
}.

(** What the server asks of the outside world. *)
Inductive event : Type :=
| EvListRoots
| EvGetcwd
| EvRun (argv : list string) (cwd : string)
| EvReadText (path : string).

(** The outside world, as the server sees it during one call.
    - [list_roots]: the outcome of asking the session for its roots
      ([mcp.get_context()] and [context.session.list_roots()]), each root
      given by its [uri.path];
    - [getcwd]: the outcome of [os.getcwd()], which raises when the
      current working directory of the process no longer exists;
    - [spawn argv cwd]: [subprocess.run(argv, capture_output=True,
      text=True, cwd=cwd)], which raises when the program cannot be
      started (no such program, no such directory) and otherwise returns
      whatever the program wrote, with its exit status;
    - [file_text path]: [Path.read_text(encoding="utf-8")];
    - [templates_dir]: the value of [TEMPLATES_DIR]. *)
Record world : Type := mkWorld {
  list_roots : exn + list (option string);
  getcwd : exn + string;
  spawn : list string -> string -> exn + CompletedProcess;
  file_text : string -> exn + string;
  templates_dir : string
}.

Definition trace : Type := list event.

Definition M (A : Type) : Type := trace -> (exn + A) * trace.

Definition ret {A : Type} (a : A) : M A := fun t => (inr a, t).

Definition bind {A B : Type} (m : M A) (k : A -> M B) : M B :=
  fun t =>
    match m t with
    | (inl e, t') => (inl e, t')
    | (inr a, t') => k a t'
    end.

Definition raise {A : Type} (e : exn) : M A := fun t => (inl e, t).

(** [try: m  except Exception as e: h e] *)
Definition try_except {A : Type} (m : M A) (h : exn -> M A) : M A :=
  fun t =>
    match m t with
    | (inl e, t') => h e t'
    | (inr a, t') => (inr a, t')
    end.

Definition emit (ev : event) : M unit := fun t => (inr tt, (t ++ [ev])%list).

Definition lift {A : Type} (r : exn + A) : M A := fun t => (r, t).

Declare Scope py_scope.
Delimit Scope py_scope with py.
Notation "x <- m ;; k" := (bind m (fun x => k))
  (at level 61, m at next level, right associativity) : py_scope.
Notation "m ;;; k" := (bind m (fun _ => k))
  (at level 61, right associativity) : py_scope.
Open Scope py_scope.

(** A call of a tool from a fresh trace: its outcome and what it asked
    of the world. *)
Definition call {A : Type} (m : M A) : (exn + A) * trace := m [].

Definition outcome {A : Type} (m : M A) : exn + A := fst (call m).
Definition asked {A : Type} (m : M A) : trace := snd (call m).

(** [xs[i]] on a list: [IndexError] out of range. *)
Definition list_getitem {A : Type} (xs : list A) (i : nat) : M A :=
  match nth_error xs i with
  | Some x => ret x
  | None => raise (Exception "list index out of range")
  end.

(** [d[key]] on a JSON value: [KeyError] when the key is missing,
    [TypeError] when the value is not a dictionary. *)
Fixpoint lookup (items : list (string * json)) (key : string) : option json :=
  match items with
  | [] => None
  | (k, v) :: items' => if String.eqb k key then Some v else lookup items' key
  end.

Definition getitem (v : json) (key : string) : M json :=
  match v with
  | JDict items =>
      match lookup items key with
      | Some x => ret x
      | None => raise (Exception ("'" ++ key ++ "'"))
      end
  | _ => raise (Exception "object is not subscriptable")
  end.

(** Iterating a JSON value: only an array is iterated here. *)
Definition as_list (v : json) : M (list json) :=
  match v with
  | JList xs => ret xs
  | _ => raise (Exception "object is not iterable")
  end.

(** [for x in xs: body], threading the variables the body updates. *)
Fixpoint for_each {A S : Type} (xs : list A) (body : A -> S -> M S) (s : S) : M S :=
  match xs with
  | [] => ret s
  | x :: xs' => s' <- body x s ;; for_each xs' body s'
  end.

(** ** The two tables *)

Definition DEFAULT_TEMPLATES : list (string * string) :=
  [ ("bug.md", "Bug Fix");
    ("feature.md", "Feature");
    ("docs.md", "Documentation");
    ("refactor.md", "Refactor");
    ("test.md", "Test");
    ("performance.md", "Performance");
    ("security.md", "Security") ].

Definition TYPE_MAPPING : list (string * string) :=
  [ ("bug", "bug.md");
    ("fix", "bug.md");
    ("feature", "feature.md");
    ("enhancement", "feature.md");
    ("docs", "docs.md");
    ("documentation", "docs.md");
    ("refactor", "refactor.md");
    ("cleanup", "refactor.md");
    ("test", "test.md");
    ("testing", "test.md");
    ("performance", "performance.md");
    ("optimization", "performance.md");
    ("security", "security.md") ].

(** The change classifier, line 170 of server.py:
    [TYPE_MAPPING.get(change_type.lower().strip(), "feature.md")]. *)
Definition classify (change_type : string) : string :=
  Py.dict_get TYPE_MAPPING (Py.strip (Py.lower change_type)) "feature.md".

(** ** The tools *)

Definition nl : string := String Py.LF EmptyString.

Definition placeholder : string :=
  "Diff not included (set include_diff=true to see full diff)".

(** The text appended to a shortened diff (lines 108-111). *)
Definition truncation_notice (max_diff_lines total_diff_lines : Z) : string :=
  nl ++ nl ++ "... Output truncated. Showing " ++ Py.str_of_int max_diff_lines
     ++ " of " ++ Py.str_of_int total_diff_lines ++ " lines ..."
     ++ nl ++ "... Use max_diff_lines parameter to see more ...".

Definition usage_hint : string :=
  "Claude can help you fill out this template based on the specific changes in your PR.".

(** Lines 104-114: the truncation policy applied to the text of the diff;
    yields [diff_content], [truncated] and [total_diff_lines]. *)
Definition bound_diff (diff_stdout : string) (max_diff_lines : Z) : string * bool * Z :=
  let diff_lines := Py.splitlines diff_stdout in
  let total_diff_lines := Z.of_nat (length diff_lines) in
  if (total_diff_lines >? max_diff_lines)%Z then
    (Py.join nl (Py.slice_to max_diff_lines diff_lines)
       ++ truncation_notice max_diff_lines total_diff_lines,
     true, total_diff_lines)
  else (diff_stdout, false, total_diff_lines).

(** [t["filename"] == template_file] for a loaded value [v]. *)
Definition eq_str (v : json) (s : string) : bool :=
  match v with
  | JStr x => String.eqb x s
  | _ => false
  end.

(** [next((t for t in templates if t["filename"] == template_file), default)] *)
Fixpoint next_match (template_file : string) (templates : list json) (default : json)
  : M json :=
  match templates with
  | [] => ret default
  | t :: rest =>
      f <- getitem t "filename" ;;
      if eq_str f template_file then ret t
      else next_match template_file rest default
  end.

Section Tools.

Variable w : world.

Definition session_list_roots : M (list (option string)) :=
  emit EvListRoots ;;; lift (list_roots w).

Definition os_getcwd : M string :=
  emit EvGetcwd ;;; lift (getcwd w).

Definition subprocess_run (argv : list string) (cwd : string) : M CompletedProcess :=
  emit (EvRun argv cwd) ;;; lift (spawn w argv cwd).

Definition read_text (path : string) : M string :=
  emit (EvReadText path) ;;; lift (file_text w path).

Definition TEMPLATES_DIR : string := templates_dir w.

(** Lines 66-75: the directory the queries run in. *)
Definition resolve_cwd (working_directory : option string) : M string :=
  working_directory <-
    match working_directory with
    | None =>
        try_except
          (roots <- session_list_roots ;;
           root <- list_getitem roots 0 ;;
           ret root)
          (fun _ => ret None)
    | Some _ => ret working_directory
    end ;;
  if Py.truthy working_directory
  then ret (match working_directory with Some d => d | None => EmptyString end)
  else os_getcwd.

(** Lines 77-133: the queries and the record built from them. *)
Definition collect (base_branch : string) (include_diff : bool)
    (max_diff_lines : Z) (cwd : string) : M json :=
  files_result <-
    subprocess_run ["git"; "diff"; "--name-status"; base_branch ++ "...HEAD"] cwd ;;
  stat_result <-
    subprocess_run ["git"; "diff"; "--stat"; base_branch ++ "...HEAD"] cwd ;;
  diffed <-
    (if include_diff then
       diff_result <- subprocess_run ["git"; "diff"; base_branch ++ "...HEAD"] cwd ;;
       ret (bound_diff (stdout diff_result) max_diff_lines)
     else ret (EmptyString, false, 0%Z)) ;;
  let '(diff_content, truncated, total_diff_lines) := diffed in
  commits_result <-
    subprocess_run ["git"; "log"; "--oneline"; base_branch ++ "..HEAD"] cwd ;;
  ret (JDict
         [ ("base_branch", JStr base_branch);
           ("files_changed", JStr (stdout files_result));
           ("statistics", JStr (stdout stat_result));
           ("commits", JStr (stdout commits_result));
           ("diff", JStr (if include_diff then diff_content else placeholder));
           ("truncated", JBool truncated);
           ("total_diff_lines", JInt total_diff_lines);
           ("_debug", JDict [("cwd", JStr cwd)]) ]).

(** [analyze_file_changes], lines 51-137. *)
Definition analyze_file_changes (base_branch : string) (include_diff : bool)
    (max_diff_lines : Z) (working_directory : option string) : M document :=
  try_except
    (cwd <- resolve_cwd working_directory ;;
     analysis <- collect base_branch include_diff max_diff_lines cwd ;;
     ret (json_dumps analysis))
    (fun e => ret (json_dumps (JDict [("error", JStr (str e))]))).

(** One catalog entry (lines 145-156). *)
Definition template_entry (filename template_type : string) : M json :=
  let path := TEMPLATES_DIR ++ "/" ++ filename in
  content <- try_except (read_text path) (fun _ => ret EmptyString) ;;
  ret (JDict [ ("filename", JStr filename);
               ("type", JStr template_type);
               ("content", JStr content) ]).

(** [get_pr_templates], lines 141-157. *)
Definition get_pr_templates : M document :=
  templates <-
    for_each DEFAULT_TEMPLATES
      (fun item templates =>
         entry <- template_entry (fst item) (snd item) ;;
         ret (templates ++ [entry])%list)
      [] ;;
  ret (json_dumps (JList templates)).

(** [suggest_template], lines 161-183. *)
Definition suggest_template (changes_summary change_type : string) : M document :=
  text <- get_pr_templates ;;
  templates <- as_list (json_loads text) ;;
  let template_file := classify change_type in
  first <- list_getitem templates 0 ;;
  selected_template <- next_match template_file templates first ;;
  let reasoning :=
    "Based on your analysis: '" ++ changes_summary
      ++ "', this appears to be a " ++ change_type ++ " change." in
  template_content <- getitem selected_template "content" ;;
  ret (json_dumps
         (JDict [ ("recommended_template", selected_template);
                  ("reasoning", JStr reasoning);
                  ("template_content", template_content);
                  ("usage_hint", JStr usage_hint) ])).

End Tools.

(** ** Reading results *)

(** The value stored under [key] in a serialized record. *)
Definition field (d : document) (key : string) : option json :=
  match parsed d with
  | JDict items => lookup items key
  | _ => None
  end.

(** The keys of a serialized record, in order. *)
Definition keys (d : document) : list string :=
  match parsed d with
  | JDict items => map fst items
  | _ => []
  end.

(** The processes a call started, in order, each with its directory. *)
Fixpoint runs (t : trace) : list (list string * string) :=
  match t with
  | [] => []
  | EvRun argv cwd :: t' => (argv, cwd) :: runs t'
  | _ :: t' => runs t'
  end.

(** The four version-control queries. *)
Definition q_files (base : string) : list string :=
  ["git"; "diff"; "--name-status"; base ++ "...HEAD"].
Definition q_stat (base : string) : list string :=
  ["git"; "diff"; "--stat"; base ++ "...HEAD"].
Definition q_diff (base : string) : list string :=
  ["git"; "diff"; base ++ "...HEAD"].
Definition q_log (base : string) : list string :=
  ["git"; "log"; "--oneline"; base ++ "..HEAD"].

Definition planned (base : string) (include_diff : bool) : list (list string) :=
  if include_diff then [q_files base; q_stat base; q_diff base; q_log base]
  else [q_files base; q_stat base; q_log base].

(** The exception raised by the first query of [qs] that cannot be
    started in [cwd], if any. *)
Fixpoint first_fault (w : world) (cwd : string) (qs : list (list string)) : option exn :=
  match qs with
  | [] => None
  | q :: qs' =>
      match spawn w q cwd with
      | inl e => Some e
      | inr _ => first_fault w cwd qs'
      end
  end.

(** The queries of [qs] up to and including the first one that cannot be
    started. *)
Fixpoint until_fault (w : world) (cwd : string) (qs : list (list string))
  : list (list string) :=
  match qs with
  | [] => []
  | q :: qs' =>
      q :: match spawn w q cwd with
           | inl _ => []
           | inr _ => until_fault w cwd qs'
           end
  end.

(** What a query wrote to its standard output. *)
Definition captured (w : world) (q : list string) (cwd : string) : string :=
  match spawn w q cwd with
  | inr r => stdout r
  | inl _ => EmptyString
  end.

(** The project root the session declares: the path of its first root,
    when the query succeeds and that path is a non-empty string. *)
Definition declared_root (w : world) : option string :=
  match list_roots w with
  | inr (Some p :: _) => if String.eqb p EmptyString then None else Some p
  | _ => None
  end.

(** The directory a call works in, or the exception raised while
    finding it. *)
Definition resolved_cwd (w : world) (working_directory : option string)
  : exn + string :=
  match working_directory with
  | Some d => if String.eqb d EmptyString then getcwd w else inr d
  | None =>
      match declared_root w with
      | Some p => inr p
      | None => getcwd w
      end
  end.

(** What resolving the directory asks of the world. *)
Definition resolution_events (w : world) (working_directory : option string) : trace :=
  match working_directory with
  | Some d => if String.eqb d EmptyString then [EvGetcwd] else []
  | None =>
      EvListRoots :: match declared_root w with
                     | Some _ => []
                     | None => [EvGetcwd]
                     end
  end.

(** The record assembled when every query could be started. *)
Definition analysis_of (w : world) (base : string) (include_diff : bool)
    (max_diff_lines : Z) (cwd : string) : json :=
  let '(diff_content, truncated, total_diff_lines) :=
    if include_diff then bound_diff (captured w (q_diff base) cwd) max_diff_lines
    else (EmptyString, false, 0%Z) in
  JDict
    [ ("base_branch", JStr base);
      ("files_changed", JStr (captured w (q_files base) cwd));
      ("statistics", JStr (captured w (q_stat base) cwd));
      ("commits", JStr (captured w (q_log base) cwd));
      ("diff", JStr (if include_diff then diff_content else placeholder));
      ("truncated", JBool truncated);
      ("total_diff_lines", JInt total_diff_lines);
      ("_debug", JDict [("cwd", JStr cwd)]) ].

Definition error_record (e : exn) : json := JDict [("error", JStr (str e))].

(** The world [w] with the behaviour of one query in one directory
    replaced. *)
Definition with_query (w : world) (q : list string) (cwd : string)
    (r : exn + CompletedProcess) : world :=
  mkWorld (list_roots w) (getcwd w)
    (fun argv d =>
       if list_eq_dec string_dec argv q
       then (if string_dec d cwd then r else spawn w argv d)
       else spawn w argv d)
    (file_text w) (templates_dir w).

(** The content the catalog shows for a template file. *)
Definition content_of (w : world) (filename : string) : string :=
  match file_text w (templates_dir w ++ "/" ++ filename) with
  | inr c => c
  | inl _ => EmptyString
  end.

Definition entry_of (w : world) (item : string * string) : json :=
  JDict [ ("filename", JStr (fst item));
          ("type", JStr (snd item));
          ("content", JStr (content_of w (fst item))) ].

(** The catalog [get_pr_templates] serializes. *)
Definition catalog (w : world) : list json := map (entry_of w) DEFAULT_TEMPLATES.


(** What reading the catalog asks of the world. *)
Definition catalog_reads (w : world) : trace :=
  map (fun item => EvReadText (templates_dir w ++ "/" ++ fst item)) DEFAULT_TEMPLATES.

(** The row of [DEFAULT_TEMPLATES] whose entry [suggest_template] picks for
    a template file: the first row with that file name, else the first
    row of the table. *)
Definition chosen (template_file : string) : string * string :=
  match find (fun item => String.eqb (fst item) template_file) DEFAULT_TEMPLATES with
  | Some item => item
  | None => ("bug.md", "Bug Fix")
  end.

Definition reasoning_of (changes_summary change_type : string) : string :=
  "Based on your analysis: '" ++ changes_summary
    ++ "', this appears to be a " ++ change_type ++ " change.".

(** ** Spellings of a change type *)

(** Two code points that spell the same letter, up to ASCII case. *)
Definition same_letter (c d : ascii) : bool :=
  Ascii.eqb c d
  || (Py.between 65 90 c && (Py.code d =? Py.code c + 32)%N)
  || (Py.between 65 90 d && (Py.code c =? Py.code d + 32)%N).

(** [s] and [t] are the same word up to the case of their letters. *)
Fixpoint same_caseless (s t : string) : bool :=
  match s, t with
  | EmptyString, EmptyString => true
  | String c s', String d t' => same_letter c d && same_caseless s' t'
  | _, _ => false
  end.

(** [s] is made of white space only. *)
Fixpoint all_space (s : string) : bool :=
  match s with
  | EmptyString => true
  | String c s' => Py.isspace c && all_space s'
  end.

(** The 256 code points of the model. *)
Definition all_ascii : list ascii := map ascii_of_nat (seq 0 256).

(** ** Sample worlds *)

(** Three lines of diff text, each ended by a line feed. *)
Definition three_lines : string := "+a" ++ nl ++ "+b" ++ nl ++ "+c" ++ nl.

(** A session with a declared root, a repository in which the full diff
    has three lines, and a template directory holding only [bug.md]. *)
Definition repo_world : world :=
  mkWorld
    (inr [Some "/home/dev/project"])
    (inr "/srv")
    (fun argv _ =>
       match argv with
       | [_; "diff"; _] => inr (mkCompleted 0 three_lines "")
       | [_; "diff"; "--stat"; _] => inr (mkCompleted 0 " 1 file changed" "")
       | [_; "diff"; _; _] => inr (mkCompleted 0 ("M" ++ String "009" "a.py") "")
       | _ => inr (mkCompleted 0 "1a2b3c4 add a" "")
       end)
    (fun path =>
       if String.eqb path "/srv/templates/bug.md" then inr "## Bug fix"
       else inl (Exception "No such file or directory"))
    "/srv/templates".

(** No session, and a directory that is not a repository: git starts,
    writes nothing to its standard output and exits with status 128. *)
Definition no_repo_world : world :=
  mkWorld
    (inl (Exception "Context is not available outside of a request"))
    (inr "/tmp")
    (fun _ _ => inr (mkCompleted 128 "" "fatal: not a git repository"))
    (fun _ => inl (Exception "No such file or directory"))
    "/srv/templates".

(** No session, and a process whose current directory has been removed:
    [os.getcwd()] raises. *)
Definition gone_world : world :=
  mkWorld
    (inl (Exception "Context is not available outside of a request"))
    (inl (Exception "[Errno 2] No such file or directory"))
    (fun _ _ => inr (mkCompleted 0 "" ""))
    (fun _ => inl (Exception "No such file or directory"))
    "/srv/templates".

(** No git on the machine: starting it raises. *)
Definition no_git_world : world :=
  mkWorld
    (inr [])
    (inr "/tmp")
    (fun _ _ => inl (Exception "[Errno 2] No such file or directory: 'git'"))
    (fun _ => inl (Exception "No such file or directory"))
    "/srv/templates".

(** ** The claims on the diff, as the specification words them *)

(** The number of lines [xs[:n]] keeps of [len] lines. *)
Definition kept_count (n len : Z) : Z :=
  if (n <? 0)%Z then Z.max 0 (len + n) else Z.min len n.

(** [s] holds no line boundary. *)
Fixpoint no_break (s : string) : bool :=
  match s with
  | EmptyString => true
  | String c s' => negb (Py.islinebreak c) && no_break s'
  end.

(** The two lines of the truncation notice. *)
Definition notice_lines (max_diff_lines total_diff_lines : Z) : list string :=
  [ "... Output truncated. Showing " ++ Py.str_of_int max_diff_lines
      ++ " of " ++ Py.str_of_int total_diff_lines ++ " lines ...";
    "... Use max_diff_lines parameter to see more ..." ].

(** [d] shows exactly the first [n] lines of [text].  Without a notice,
    [d] is [text] itself and its lines are those [n] lines.  With a
    notice, given as its text and its lines, [d] is those [n] lines
    joined by line feeds and followed by the text of the notice; read
    line by line, [d] is the [n] lines, then blank lines, then the lines
    of the notice. *)
Definition shows (d text : string) (n : Z) (notice : option (string * list string))
  : Prop :=
  exists kept : list string,
    Z.of_nat (length kept) = n /\
    kept = firstn (length kept) (Py.splitlines text) /\
    match notice with
    | Some (note, note_lines) =>
        d = Py.join nl kept ++ note /\
        exists blank : list string,
          Forall (fun l => l = "") blank /\
          Py.splitlines d = (kept ++ blank ++ note_lines)%list
    | None => d = text /\ Py.splitlines d = kept
    end.

(** The record of a call with [include_diff = true], [max_diff_lines = N]
    and a diff of [L] lines printed in the directory [cwd], where
    [count N L] says how many lines of the diff the [diff] field
    shows. *)
Definition diff_bounded_by (count : Z -> Z -> Z) (w : world) (base : string) (N : Z)
    (wd : option string) (cwd : string) : Prop :=
  let text := captured w (q_diff base) cwd in
  let L := Z.of_nat (length (Py.splitlines text)) in
  exists (doc : document) (d : string),
    outcome (analyze_file_changes w base true N wd) = inr doc /\
    field doc "truncated" = Some (JBool (L >? N)%Z) /\
    field doc "total_diff_lines" = Some (JInt L) /\
    field doc "diff" = Some (JStr d) /\
    shows d text (count N L)
      (if (L >? N)%Z
       then Some (truncation_notice N L, notice_lines N L)
       else None).

(** A query is at fault when it cannot be started or exits with a
    non-zero status. *)
Definition at_fault (w : world) (cwd : string) (q : list string) : Prop :=
  match spawn w q cwd with
  | inl _ => True
  | inr r => returncode r <> 0%Z
  end.

(** The specification's reading of failures: a call with a query at
    fault returns a record [{error: message}]. *)
Definition fault_gives_error (w : world) (base : string) (include_diff : bool)
    (N : Z) (wd : option string) : Prop :=
  (exists q cwd,
     resolved_cwd w wd = inr cwd /\
     In q (planned base include_diff) /\ at_fault w cwd q) ->
  exists msg : string,
    outcome (analyze_file_changes w base include_diff N wd)
      = inr (json_dumps (JDict [("error", JStr msg)])).

(** The specification's reading of the record: the directory is stored
    under [working_directory]. *)
Definition has_working_directory (w : world) (base : string) (include_diff : bool)
    (N : Z) (wd : option string) : Prop :=
  forall doc : document,
    outcome (analyze_file_changes w base include_diff N wd) = inr doc ->
    field doc "error" = None ->
    exists cwd : string,
      resolved_cwd w wd = inr cwd /\
      field doc "working_directory" = Some (JStr cwd).

(** The specification's reading of the resolution of the directory: with
    no [working_directory] given, the step yields a directory and raises
    nothing. *)
Definition resolution_never_raises (w : world) : Prop :=
  forall t : trace,
    exists (cwd : string) (t' : trace), resolve_cwd w None t = (inr cwd, t').

(** Membership in a list that is written out. *)
Ltac in_list := cbn [In]; repeat first [left; reflexivity | right].

(** ** Further notions *)

(** Two outcomes of starting a process that the server cannot tell
    apart: the same exception, or two completed runs with the same
    standard output (exit status and standard error may differ). *)
Definition same_stdout (a b : exn + CompletedProcess) : Prop :=
  match a, b with
  | inl e, inl e' => e = e'
  | inr r, inr r' => stdout r = stdout r'
  | _, _ => False
  end.

(** A repository whose branch has no change against the base: every
    query succeeds and writes nothing. *)
Definition unchanged_world : world :=
  mkWorld
    (inr [Some "/home/dev/project"])
    (inr "/srv")
    (fun _ _ => inr (mkCompleted 0 "" ""))
    (fun _ => inl (Exception "No such file or directory"))
    "/srv/templates".

(** ** The calls, step by step *)

Lemma resolve_cwd_run (w : world) (wd : option string) (t : trace) :
  resolve_cwd w wd t = (resolved_cwd w wd, (t ++ resolution_events w wd)%list).
Proof.
  unfold resolve_cwd, resolved_cwd, resolution_events, declared_root.
  destruct wd as [d|].
  - unfold bind, ret, os_getcwd, emit, lift, Py.truthy; cbn.
    destruct (String.eqb d EmptyString); cbn.
    + now destruct (getcwd w).
    + now rewrite app_nil_r.
  - unfold session_list_roots, try_except, bind, emit, lift, ret, os_getcwd; cbn.
    destruct (list_roots w) as [e|[|[p|] rest]]; cbn;
      try (destruct (getcwd w); now rewrite <- app_assoc).
    destruct (String.eqb p EmptyString); cbn;
      [destruct (getcwd w)|]; now rewrite <- ?app_assoc.
Qed.

Lemma subprocess_run_run (w : world) (q : list string) (cwd : string) (t : trace) :
  subprocess_run w q cwd t = (spawn w q cwd, (t ++ [EvRun q cwd])%list).
Proof. reflexivity. Qed.

Lemma bind_run {A B : Type} (m : M A) (k : A -> M B) (t : trace) :
  bind m k t =
    match m t with
    | (inl e, t') => (inl e, t')
    | (inr a, t') => k a t'
    end.
Proof. reflexivity. Qed.

Lemma collect_run (w : world) (base : string) (inc : bool) (N : Z) (cwd : string)
    (t : trace) :
  collect w base inc N cwd t =
    (match first_fault w cwd (planned base inc) with
     | Some e => inl e
     | None => inr (analysis_of w base inc N cwd)
     end,
     (t ++ map (fun q => EvRun q cwd) (until_fault w cwd (planned base inc)))%list).
Proof.
  unfold collect, analysis_of, captured, planned, q_files, q_stat, q_diff, q_log.
  destruct inc; cbn [first_fault until_fault map];
    rewrite bind_run, subprocess_run_run;
    (destruct (spawn w ["git"; "diff"; "--name-status"; _] cwd) as [e1|r1];
       [reflexivity|]);
    rewrite bind_run, subprocess_run_run;
    (destruct (spawn w ["git"; "diff"; "--stat"; _] cwd) as [e2|r2];
       [now rewrite <- app_assoc|]).
  - rewrite !bind_run, subprocess_run_run.
    destruct (spawn w ["git"; "diff"; _] cwd) as [e3|r3];
      [now rewrite <- !app_assoc|].
    unfold ret at 1.
    destruct (bound_diff (stdout r3) N) as [[dc tr] tot].
    rewrite bind_run, subprocess_run_run.
    destruct (spawn w ["git"; "log"; _; _] cwd) as [e4|r4];
      now rewrite <- !app_assoc.
  - rewrite bind_run. unfold ret at 1.
    rewrite bind_run, subprocess_run_run.
    destruct (spawn w ["git"; "log"; _; _] cwd) as [e4|r4];
      now rewrite <- !app_assoc.
Qed.

Lemma analyze_call (w : world) (base : string) (inc : bool) (N : Z)
    (wd : option string) :
  call (analyze_file_changes w base inc N wd) =
    match resolved_cwd w wd with
    | inl e => (inr (json_dumps (error_record e)), resolution_events w wd)
    | inr cwd =>
        (inr (json_dumps
                match first_fault w cwd (planned base inc) with
                | Some e => error_record e
                | None => analysis_of w base inc N cwd
                end),
         (resolution_events w wd
            ++ map (fun q => EvRun q cwd) (until_fault w cwd (planned base inc)))%list)
    end.
Proof.
  unfold call, analyze_file_changes, try_except.
  rewrite bind_run, resolve_cwd_run.
  destruct (resolved_cwd w wd) as [e|cwd]; [reflexivity|].
  rewrite bind_run, collect_run.
  destruct (first_fault w _ _); reflexivity.
Qed.

Lemma template_entry_run (w : world) (item : string * string) (t : trace) :
  template_entry w (fst item) (snd item) t =
    (inr (entry_of w item),
     (t ++ [EvReadText (templates_dir w ++ "/" ++ fst item)])%list).
Proof.
  unfold template_entry, entry_of, content_of, read_text, TEMPLATES_DIR,
    try_except, bind, emit, lift, ret.
  destruct (file_text w _); reflexivity.
Qed.

Lemma catalog_loop_run (w : world) (items : list (string * string)) :
  forall (acc : list json) (t : trace),
    for_each items
      (fun item templates =>
         entry <- template_entry w (fst item) (snd item) ;;
         ret (templates ++ [entry])%list) acc t =
      (inr (acc ++ map (entry_of w) items)%list,
       (t ++ map (fun item => EvReadText (templates_dir w ++ "/" ++ fst item)) items)%list).
Proof.
  induction items as [|item items IH]; intros acc t; cbn [for_each map].
  - unfold ret. now rewrite !app_nil_r.
  - rewrite bind_run, bind_run, template_entry_run. unfold ret at 1.
    rewrite IH, <- !app_assoc. reflexivity.
Qed.

Lemma get_pr_templates_run (w : world) (t : trace) :
  get_pr_templates w t =
    (inr (json_dumps (JList (catalog w))), (t ++ catalog_reads w)%list).
Proof.
  unfold get_pr_templates. rewrite bind_run, catalog_loop_run. reflexivity.
Qed.

Lemma next_match_run (f : string) (d : json) (t : trace) (w : world)
    (items : list (string * string)) :
  next_match f (map (entry_of w) items) d t =
    (inr match find (fun item => String.eqb (fst item) f) items with
         | Some item => entry_of w item
         | None => d
         end, t).
Proof.
  induction items as [|item items IH]; cbn [map next_match find].
  - reflexivity.
  - rewrite bind_run. cbn.
    destruct (String.eqb (fst item) f); [reflexivity | exact IH].
Qed.

Lemma suggest_template_run (w : world) (summary change_type : string) (t : trace) :
  suggest_template w summary change_type t =
    (inr (json_dumps
            (JDict
               [ ("recommended_template", entry_of w (chosen (classify change_type)));
                 ("reasoning", JStr (reasoning_of summary change_type));
                 ("template_content",
                   JStr (content_of w (fst (chosen (classify change_type)))));
                 ("usage_hint", JStr usage_hint) ])),
     (t ++ catalog_reads w)%list).
Proof.
  unfold suggest_template.
  rewrite bind_run, get_pr_templates_run.
  cbn [json_loads json_dumps parsed as_list].
  rewrite bind_run. unfold ret at 1.
  rewrite bind_run.
  change (list_getitem (catalog w) 0)
    with (@ret json (entry_of w ("bug.md", "Bug Fix"))).
  unfold ret at 1.
  rewrite bind_run. unfold catalog at 1. rewrite next_match_run.
  replace (match find _ DEFAULT_TEMPLATES with
           | Some item => entry_of w item
           | None => entry_of w ("bug.md", "Bug Fix")
           end)
    with (entry_of w (chosen (classify change_type)))
    by (unfold chosen; now destruct (find _ DEFAULT_TEMPLATES)).
  rewrite bind_run. reflexivity.
Qed.

(** ** Strings *)

Lemma in_all_ascii (c : ascii) : In c all_ascii.
Proof.
  unfold all_ascii. rewrite <- (ascii_nat_embedding c).
  apply in_map, in_seq. pose proof (nat_ascii_bounded c). lia.
Qed.

Lemma forall_ascii (P : ascii -> bool) :
  forallb P all_ascii = true -> forall c, P c = true.
Proof.
  intros H c. rewrite forallb_forall in H. apply H, in_all_ascii.
Qed.

Lemma same_letter_lower (c d : ascii) :
  same_letter c d = true -> Py.to_lower c = Py.to_lower d.
Proof.
  intros H.
  assert (K : implb (same_letter c d)
                (Ascii.eqb (Py.to_lower c) (Py.to_lower d)) = true).
  { assert (T : forallb (fun x => forallb (fun y =>
                implb (same_letter x y)
                  (Ascii.eqb (Py.to_lower x) (Py.to_lower y))) all_ascii)
                all_ascii = true) by (vm_compute; reflexivity).
    pose proof (forall_ascii _ T c) as Tc. cbv beta in Tc.
    exact (forall_ascii _ Tc d). }
  rewrite H in K. now apply Ascii.eqb_eq.
Qed.

Lemma space_lower (c : ascii) : Py.isspace c = true -> Py.to_lower c = c.
Proof.
  intros H.
  assert (K : implb (Py.isspace c) (Ascii.eqb (Py.to_lower c) c) = true).
  { clear H. revert c. apply forall_ascii. vm_compute. reflexivity. }
  rewrite H in K. now apply Ascii.eqb_eq.
Qed.

Lemma string_app_assoc (a b c : string) : (a ++ b) ++ c = a ++ (b ++ c).
Proof. induction a as [|x a IH]; cbn; [reflexivity | now rewrite IH]. Qed.

Lemma lower_app (a b : string) : Py.lower (a ++ b) = Py.lower a ++ Py.lower b.
Proof. induction a as [|c a IH]; cbn; [reflexivity | now rewrite IH]. Qed.

Lemma lower_all_space (s : string) : all_space s = true -> Py.lower s = s.
Proof.
  induction s as [|c s IH]; cbn; [reflexivity|].
  intros [Hc Hs]%andb_prop. now rewrite (space_lower c Hc), IH.
Qed.

Lemma lower_same_caseless (s : string) :
  forall t, same_caseless s t = true -> Py.lower s = Py.lower t.
Proof.
  induction s as [|c s IH]; intros [|d t]; cbn; try discriminate; [reflexivity|].
  intros [Hc Hs]%andb_prop. now rewrite (same_letter_lower c d Hc), (IH t Hs).
Qed.

Lemma lstrip_all_space (pre s : string) :
  all_space pre = true -> Py.lstrip (pre ++ s) = Py.lstrip s.
Proof.
  induction pre as [|c pre IH]; cbn; [reflexivity|].
  intros [Hc Hs]%andb_prop. rewrite Hc. now apply IH.
Qed.

Lemma lstrip_only_space (s : string) : all_space s = true -> Py.lstrip s = "".
Proof.
  induction s as [|c s IH]; cbn; [reflexivity|].
  intros [Hc Hs]%andb_prop. rewrite Hc. now apply IH.
Qed.

Lemma rstrip_all_space (post : string) : all_space post = true -> Py.rstrip post = "".
Proof.
  induction post as [|c post IH]; cbn; [reflexivity|].
  intros [Hc Hs]%andb_prop. now rewrite (IH Hs), Hc.
Qed.

Lemma rstrip_app_space (s post : string) :
  all_space post = true -> Py.rstrip (s ++ post) = Py.rstrip s.
Proof.
  intros H. induction s as [|c s IH]; cbn.
  - now apply rstrip_all_space.
  - now rewrite IH.
Qed.

Lemma strip_app_space (s post : string) :
  all_space post = true -> Py.strip (s ++ post) = Py.strip s.
Proof.
  intros H. unfold Py.strip. induction s as [|c s IH].
  - cbn. now rewrite (lstrip_only_space post H).
  - cbn. destruct (Py.isspace c); [exact IH|].
    now rewrite <- (rstrip_app_space (String c s) post H).
Qed.

(** Normalization forgets case and surrounding white space. *)
Lemma normalize_spelling (key spelled pre post : string) :
  same_caseless spelled key = true ->
  all_space pre = true -> all_space post = true ->
  Py.strip (Py.lower (pre ++ spelled ++ post)) = Py.strip (Py.lower key).
Proof.
  intros Hk Hpre Hpost.
  rewrite !lower_app, (lower_all_space pre Hpre), (lower_all_space post Hpost),
    (lower_same_caseless spelled key Hk).
  unfold Py.strip at 1. rewrite lstrip_all_space by exact Hpre.
  fold (Py.strip (Py.lower key ++ post)). now apply strip_app_space.
Qed.

(** ** The tables *)

Lemma dict_get_default {V : Type} (d : list (string * V)) (key : string) (v : V) :
  ~ In key (map fst d) -> Py.dict_get d key v = v.
Proof.
  induction d as [|[k x] d IH]; cbn; [reflexivity|].
  intros H. destruct (String.eqb_spec k key) as [->|_].
  - exfalso. apply H. now left.
  - apply IH. intros K. apply H. now right.
Qed.

Lemma dict_get_range {V : Type} (d : list (string * V)) (key : string) (v : V) :
  Py.dict_get d key v = v \/ In (Py.dict_get d key v) (map snd d).
Proof.
  induction d as [|[k x] d IH]; cbn; [now left|].
  destruct (String.eqb k key); [right; now left|].
  destruct IH as [IH|IH]; [now left | right; now right].
Qed.

Lemma type_mapping_targets :
  Forall (fun file => In file (map fst DEFAULT_TEMPLATES)) (map snd TYPE_MAPPING).
Proof.
  unfold TYPE_MAPPING, DEFAULT_TEMPLATES. cbn [map fst snd].
  repeat (apply Forall_cons; [in_list|]). apply Forall_nil.
Qed.

Lemma classify_in_catalog (change_type : string) :
  In (classify change_type) (map fst DEFAULT_TEMPLATES).
Proof.
  unfold classify.
  destruct (dict_get_range TYPE_MAPPING (Py.strip (Py.lower change_type)) "feature.md")
    as [-> | H].
  - cbn. tauto.
  - pose proof type_mapping_targets as T. rewrite Forall_forall in T. now apply T.
Qed.

Lemma type_mapping_entry (key file : string) :
  In (key, file) TYPE_MAPPING ->
  Py.strip (Py.lower key) = key /\ Py.dict_get TYPE_MAPPING key "feature.md" = file.
Proof.
  cbn. intros H.
  repeat (destruct H as [H|H]; [injection H as <- <-; split; reflexivity|]).
  contradiction.
Qed.

Lemma chosen_in (template_file : string) : In (chosen template_file) DEFAULT_TEMPLATES.
Proof.
  unfold chosen.
  destruct (find _ DEFAULT_TEMPLATES) as [item|] eqn:E.
  - now apply find_some in E.
  - now left.
Qed.

Lemma chosen_file (template_file : string) :
  In template_file (map fst DEFAULT_TEMPLATES) ->
  fst (chosen template_file) = template_file.
Proof.
  cbn. intros H.
  repeat (destruct H as [<-|H]; [reflexivity|]). contradiction.
Qed.

(** ** The template tools *)

(** C6.  Whatever the file system holds, [get_pr_templates] returns (it
    raises nothing) a list of exactly 7 entries, one per row of
    [DEFAULT_TEMPLATES] and in the order of that table: bug, feature,
    docs, refactor, test, performance, security.  Each entry carries the
    row's file name and label, and as content the text of the file, or
    the empty string when reading the file raises. *)
Theorem get_pr_templates_seven_entries (w : world) :
  exists entries : list json,
    outcome (get_pr_templates w) = inr (json_dumps (JList entries)) /\
    length entries = 7 /\
    map (fun e => match e with
                  | JDict items => lookup items "filename"
                  | _ => None
                  end) entries
      = map (fun name => Some (JStr name))
          ["bug.md"; "feature.md"; "docs.md"; "refactor.md"; "test.md";
           "performance.md"; "security.md"] /\
    Forall2
      (fun item e =>
         e = JDict
               [ ("filename", JStr (fst item));
                 ("type", JStr (snd item));
                 ("content",
                   JStr match file_text w (TEMPLATES_DIR w ++ "/" ++ fst item) with
                        | inr text => text
                        | inl _ => ""
                        end) ])
      DEFAULT_TEMPLATES entries.
Proof.
  exists (catalog w). unfold outcome, call.
  rewrite get_pr_templates_run.
  repeat split.
  unfold catalog, DEFAULT_TEMPLATES. repeat constructor.
Qed.

(** C10.  For all summaries and change types, [suggest_template] returns
    a suggestion whose [template_content] is the content of its
    [recommended_template], and that entry is one of the 7 entries of
    the catalog [get_pr_templates] returns; the catalog is never empty,
    so the first entry used as the default of the search exists. *)
Theorem suggest_template_consistent (w : world) (changes_summary change_type : string) :
  exists (doc : document) (entries : list json) (entry content : json),
    outcome (suggest_template w changes_summary change_type) = inr doc /\
    outcome (get_pr_templates w) = inr (json_dumps (JList entries)) /\
    length entries = 7 /\
    field doc "recommended_template" = Some entry /\
    In entry entries /\
    outcome (getitem entry "content") = inr content /\
    field doc "template_content" = Some content.
Proof.
  eexists _, (catalog w), _, _. unfold outcome, call.
  rewrite suggest_template_run, get_pr_templates_run.
  cbn [fst]. repeat split.
  apply in_map, chosen_in.
Qed.

(** C4.  The classifier is a total function into the file names of the
    catalog; and when the normalized change type is not a key of
    [TYPE_MAPPING], [suggest_template] recommends the feature entry and
    its reasoning text contains the change type as the caller wrote
    it. *)
Theorem classify_total_and_feature_default :
  (forall change_type : string,
     In (classify change_type) (map fst DEFAULT_TEMPLATES)) /\
  (forall (w : world) (changes_summary change_type : string),
     ~ In (Py.strip (Py.lower change_type)) (map fst TYPE_MAPPING) ->
     classify change_type = "feature.md" /\
     exists (doc : document) (before after : string),
       outcome (suggest_template w changes_summary change_type) = inr doc /\
       field doc "recommended_template"
         = Some (JDict
                   [ ("filename", JStr "feature.md");
                     ("type", JStr "Feature");
                     ("content",
                       JStr match file_text w (TEMPLATES_DIR w ++ "/feature.md") with
                            | inr text => text
                            | inl _ => ""
                            end) ]) /\
       field doc "reasoning" = Some (JStr (before ++ change_type ++ after))).
Proof.
  split; [exact classify_in_catalog|].
  intros w summary change_type H.
  assert (E : classify change_type = "feature.md")
    by (unfold classify; now apply dict_get_default).
  split; [exact E|].
  eexists _, ("Based on your analysis: '" ++ summary ++ "', this appears to be a "),
    " change.".
  unfold outcome, call. rewrite suggest_template_run, E.
  cbn [fst]. repeat split.
  unfold field, reasoning_of. cbn [parsed json_dumps lookup String.eqb Ascii.eqb Bool.eqb].
  cbn. now rewrite !string_app_assoc.
Qed.

Lemma classify_total_and_feature_default_witness :
  classify "chore" = "feature.md" /\
  exists (doc : document) (before after : string),
    outcome (suggest_template repo_world "bump the linter" "chore") = inr doc /\
    field doc "recommended_template"
      = Some (JDict
                [ ("filename", JStr "feature.md");
                  ("type", JStr "Feature");
                  ("content",
                    JStr match file_text repo_world
                                 (TEMPLATES_DIR repo_world ++ "/feature.md") with
                         | inr text => text
                         | inl _ => ""
                         end) ]) /\
    field doc "reasoning" = Some (JStr (before ++ "chore" ++ after)).
Proof.
  apply (proj2 classify_total_and_feature_default repo_world "bump the linter" "chore").
  vm_compute. intuition discriminate.
Defined.

(** C5.  A supported synonym, spelled in any letter case and surrounded
    by any white space, is classified as the synonym itself is: both get
    the template file that [TYPE_MAPPING] lists for it.  So "FIX ",
    "fix" and "Fix" give the bug template, "cleanup" the refactor
    template, "optimization" the performance template, "testing" the
    test template, and each canonical name gives its own template. *)
Theorem classify_spelling :
  (forall key file spelled before after : string,
     In (key, file) TYPE_MAPPING ->
     same_caseless spelled key = true ->
     all_space before = true ->
     all_space after = true ->
     classify (before ++ spelled ++ after) = classify key /\
     classify key = file) /\
  classify "FIX " = "bug.md" /\
  classify "fix" = "bug.md" /\
  classify "Fix" = "bug.md" /\
  classify "cleanup" = "refactor.md" /\
  classify "optimization" = "performance.md" /\
  classify "testing" = "test.md" /\
  Forall (fun name => classify name = name ++ ".md")
    ["bug"; "feature"; "docs"; "refactor"; "test"; "performance"; "security"].
Proof.
  split.
  - intros key file spelled before after Hin Hk Hb Ha.
    destruct (type_mapping_entry key file Hin) as [Hn Hf].
    unfold classify.
    rewrite (normalize_spelling key spelled before after Hk Hb Ha), Hn.
    split; [reflexivity | exact Hf].
  - repeat split. repeat constructor.
Qed.

Lemma classify_spelling_witness :
  classify (String "009" " " ++ "OptimiZation" ++ nl)
    = classify "optimization" /\
  classify "optimization" = "performance.md".
Proof.
  apply (proj1 classify_spelling "optimization" "performance.md" "OptimiZation"
           (String "009" " ") nl).
  - in_list.
  - reflexivity.
  - reflexivity.
  - reflexivity.
Defined.

(** ** Traces and queries *)

Lemma runs_app (t u : trace) : runs (t ++ u)%list = (runs t ++ runs u)%list.
Proof.
  induction t as [|[| |argv cwd|path] t IH]; cbn; rewrite ?IH; reflexivity.
Qed.

Lemma runs_resolution (w : world) (wd : option string) :
  runs (resolution_events w wd) = [].
Proof.
  unfold resolution_events.
  destruct wd as [d|]; [now destruct (String.eqb d "")|].
  now destruct (declared_root w).
Qed.

Lemma runs_queries (cwd : string) (qs : list (list string)) :
  runs (map (fun q => EvRun q cwd) qs) = map (fun q => (q, cwd)) qs.
Proof. induction qs as [|q qs IH]; cbn; [reflexivity | now rewrite IH]. Qed.

Lemma until_fault_incl (w : world) (cwd : string) (qs : list (list string)) :
  incl (until_fault w cwd qs) qs.
Proof.
  induction qs as [|q qs IH]; cbn; [apply incl_refl|].
  destruct (spawn w q cwd).
  - intros x [<-|[]]. now left.
  - apply incl_cons; [now left | now apply incl_tl].
Qed.

Lemma until_fault_all (w : world) (cwd : string) (qs : list (list string)) :
  first_fault w cwd qs = None -> until_fault w cwd qs = qs.
Proof.
  induction qs as [|q qs IH]; cbn; [reflexivity|].
  destruct (spawn w q cwd); [discriminate|]. intros H. now rewrite IH.
Qed.

Lemma first_fault_some (w : world) (cwd : string) (qs : list (list string))
    (q : list string) (e : exn) :
  In q qs -> spawn w q cwd = inl e -> exists e', first_fault w cwd qs = Some e'.
Proof.
  induction qs as [|q' qs IH]; cbn; [contradiction|].
  intros [->|H] E.
  - rewrite E. now exists e.
  - destruct (spawn w q' cwd) as [e'|_]; [now exists e' | now apply IH].
Qed.

Lemma asked_runs (w : world) (base : string) (inc : bool) (N : Z) (wd : option string) :
  runs (asked (analyze_file_changes w base inc N wd)) =
    match resolved_cwd w wd with
    | inl _ => []
    | inr cwd => map (fun q => (q, cwd)) (until_fault w cwd (planned base inc))
    end.
Proof.
  unfold asked. rewrite analyze_call.
  destruct (resolved_cwd w wd) as [e|cwd]; cbn [snd].
  - apply runs_resolution.
  - now rewrite runs_app, runs_resolution, runs_queries.
Qed.

(** ** The truncation policy *)

Lemma slice_to_firstn {A : Type} (n : Z) (xs : list A) :
  Py.slice_to n xs = firstn (Z.to_nat (kept_count n (Z.of_nat (length xs)))) xs.
Proof.
  unfold Py.slice_to, kept_count.
  destruct (Z.ltb_spec n 0).
  - destruct (Z.ltb_spec (n + Z.of_nat (length xs)) 0); f_equal; lia.
  - destruct (Z.leb_spec (Z.of_nat (length xs)) n); f_equal; lia.
Qed.

Lemma kept_count_bounds (n len : Z) :
  (0 <= len -> 0 <= kept_count n len <= len)%Z.
Proof. unfold kept_count. destruct (Z.ltb_spec n 0); lia. Qed.

Lemma slice_to_length {A : Type} (n : Z) (xs : list A) :
  Z.of_nat (length (Py.slice_to n xs)) = kept_count n (Z.of_nat (length xs)).
Proof.
  rewrite slice_to_firstn, length_firstn.
  pose proof (kept_count_bounds n (Z.of_nat (length xs))). lia.
Qed.

(** *** Lines *)

Lemma splitlines_line (s rest : string) :
  no_break s = true ->
  Py.splitlines (s ++ String Py.LF rest) = s :: Py.splitlines rest.
Proof.
  induction s as [|c s IH]; intros H.
  - cbn. now destruct rest.
  - cbn in H. apply andb_prop in H as [Hc Hs].
    apply negb_true_iff in Hc.
    cbn [append Py.splitlines]. rewrite Hc, (IH Hs). reflexivity.
Qed.

Lemma splitlines_blank (rest : string) :
  Py.splitlines (String Py.LF rest) = "" :: Py.splitlines rest.
Proof. exact (splitlines_line "" rest eq_refl). Qed.

Lemma no_break_app (a b : string) :
  no_break (a ++ b) = no_break a && no_break b.
Proof.
  induction a as [|c a IH]; cbn; [reflexivity|].
  now rewrite IH, andb_assoc.
Qed.

Lemma no_break_digits (d : Decimal.uint) : no_break (NilEmpty.string_of_uint d) = true.
Proof. induction d; cbn; auto. Qed.

Lemma no_break_int (n : Z) : no_break (Py.str_of_int n) = true.
Proof.
  unfold Py.str_of_int, NilZero.string_of_int, NilZero.string_of_uint.
  destruct (Z.to_int n) as [d|d]; destruct d; cbn; auto using no_break_digits.
Qed.

(** The lines [splitlines] yields hold no line boundary. *)
Lemma splitlines_no_break (s : string) :
  Forall (fun l => no_break l = true) (Py.splitlines s).
Proof.
  assert (K : forall n s, String.length s <= n ->
                Forall (fun l => no_break l = true) (Py.splitlines s)).
  { intros n. induction n as [|n IH]; intros [|c t] Hlen; cbn in Hlen;
      try (constructor; fail); try lia.
    cbn [Py.splitlines].
    destruct (Py.islinebreak c) eqn:Hc.
    - constructor; [reflexivity|].
      destruct t as [|c' t']; [constructor|].
      destruct (Ascii.eqb c Py.CR && Ascii.eqb c' Py.LF)%bool;
        apply IH; cbn in *; lia.
    - assert (Ht : String.length t <= n) by lia.
      specialize (IH t Ht).
      destruct (Py.splitlines t) as [|l ls].
      + constructor; [cbn; now rewrite Hc | constructor].
      + inversion IH; subst. constructor; [cbn; now rewrite Hc | assumption]. }
  now apply (K (String.length s)).
Qed.

Lemma splitlines_joined (k : string) (ks : list string) (rest : string) :
  Forall (fun l => no_break l = true) (k :: ks) ->
  Py.splitlines (Py.join nl (k :: ks) ++ String Py.LF rest)
    = ((k :: ks) ++ Py.splitlines rest)%list.
Proof.
  revert k. induction ks as [|k' ks IH]; intros k H; inversion H; subst.
  - cbn [Py.join String.concat app]. now apply splitlines_line.
  - unfold Py.join in *.
    change (String.concat nl (k :: k' :: ks))
      with (k ++ nl ++ String.concat nl (k' :: ks)).
    rewrite !string_app_assoc.
    change (nl ++ String.concat nl (k' :: ks) ++ String Py.LF rest)
      with (String Py.LF (String.concat nl (k' :: ks) ++ String Py.LF rest)).
    rewrite splitlines_line by assumption.
    rewrite IH by assumption. reflexivity.
Qed.

Lemma notice_split (N L : Z) :
  exists rest : string,
    truncation_notice N L = String Py.LF rest /\
    Py.splitlines rest = "" :: notice_lines N L.
Proof.
  exists (String Py.LF
            (("... Output truncated. Showing " ++ Py.str_of_int N
                ++ " of " ++ Py.str_of_int L ++ " lines ...")
             ++ String Py.LF "... Use max_diff_lines parameter to see more ...")).
  split.
  - unfold truncation_notice. rewrite !string_app_assoc. reflexivity.
  - rewrite splitlines_blank.
    rewrite splitlines_line; [reflexivity|].
    rewrite !no_break_app, !no_break_int. reflexivity.
Qed.

(** Read line by line, a shortened diff is the kept lines, one blank
    line (two when no line is kept) and the two lines of the notice. *)
Lemma truncated_lines (kept : list string) (N L : Z) :
  Forall (fun l => no_break l = true) kept ->
  Py.splitlines (Py.join nl kept ++ truncation_notice N L)
    = (kept ++ (match kept with [] => [""; ""] | _ => [""] end)
         ++ notice_lines N L)%list.
Proof.
  intros H. destruct (notice_split N L) as (rest & -> & Hlines).
  destruct kept as [|k ks].
  - cbn [Py.join String.concat app].
    change ("" ++ String Py.LF rest) with (String Py.LF rest).
    rewrite splitlines_blank, Hlines. reflexivity.
  - rewrite splitlines_joined by assumption. now rewrite Hlines.
Qed.

Lemma Forall_firstn {A : Type} (P : A -> Prop) (n : nat) (xs : list A) :
  Forall P xs -> Forall P (firstn n xs).
Proof.
  intros H. revert n. induction H; intros [|n]; cbn; constructor; auto.
Qed.

Lemma bound_diff_shows (text : string) (N : Z) :
  let L := Z.of_nat (length (Py.splitlines text)) in
  exists d : string,
    bound_diff text N = (d, (L >? N)%Z, L) /\
    shows d text (kept_count N L)
      (if (L >? N)%Z
       then Some (truncation_notice N L, notice_lines N L)
       else None).
Proof.
  intros L. unfold bound_diff. fold L.
  destruct (Z.gtb_spec L N) as [H|H].
  - eexists. split; [reflexivity|].
    exists (Py.slice_to N (Py.splitlines text)). split; [apply slice_to_length|].
    split; [|split; [reflexivity|]].
    + rewrite slice_to_firstn at 1. f_equal.
      apply Nat2Z.inj. rewrite slice_to_length, Z2Nat.id; [reflexivity|].
      apply kept_count_bounds. lia.
    + eexists. split; [|apply truncated_lines].
      * destruct (Py.slice_to N (Py.splitlines text)); repeat constructor.
      * rewrite slice_to_firstn. apply Forall_firstn, splitlines_no_break.
  - exists text. split; [reflexivity|].
    exists (Py.splitlines text). repeat split.
    + unfold kept_count. fold L. destruct (Z.ltb_spec N 0); lia.
    + now rewrite firstn_all.
Qed.

(** ** The diff analysis *)

(** C1.  The truncation policy at a negative bound.  With
    [max_diff_lines = -1] and a diff of 3 lines the call reports a
    truncation and a total of 3, and its [diff] field holds the first 2
    lines of the diff followed by a notice that reads "Showing -1 of 3
    lines".  So the field does not hold [min 3 (-1)] lines, nor at most
    [max_diff_lines] lines: no text shows a negative number of lines. *)
Theorem negative_bound_keeps_two_lines :
  (exists doc : document,
     outcome (analyze_file_changes repo_world "main" true (-1) None) = inr doc /\
     field doc "truncated" = Some (JBool true) /\
     field doc "total_diff_lines" = Some (JInt 3) /\
     field doc "diff"
       = Some (JStr ("+a" ++ nl ++ "+b" ++ truncation_notice (-1) 3)) /\
     Py.splitlines (truncation_notice (-1) 3)
       = [ ""; ""; "... Output truncated. Showing -1 of 3 lines ...";
           "... Use max_diff_lines parameter to see more ..." ]) /\
  ~ diff_bounded_by (fun N L => Z.min L N) repo_world "main" (-1) None
      "/home/dev/project".
Proof.
  split.
  - eexists. repeat split.
  - intros (doc & d & _ & _ & _ & _ & kept & Hlen & _).
    pose proof (Z.le_min_r
      (Z.of_nat (length (Py.splitlines
         (captured repo_world (q_diff "main") "/home/dev/project"))))
      (-1)). lia.
Qed.

(** C2, amended.  [analyze_file_changes] always returns a record and
    raises nothing.  When one of its queries cannot be started (no
    version-control tool, no such directory), the record is
    [{error: message}] with the message of the first such fault; so it
    is when the directory to work in cannot be found.  When every query
    could be started, the record is the analysis built from what the
    queries wrote, whatever their exit status; it has no [error]
    field. *)
Theorem analyze_never_raises (w : world) (base : string) (inc : bool) (N : Z)
    (wd : option string) :
  exists doc : document,
    outcome (analyze_file_changes w base inc N wd) = inr doc /\
    match resolved_cwd w wd with
    | inl e => parsed doc = JDict [("error", JStr (str e))]
    | inr cwd =>
        match first_fault w cwd (planned base inc) with
        | Some e => parsed doc = JDict [("error", JStr (str e))]
        | None =>
            field doc "error" = None /\
            field doc "files_changed" = Some (JStr (captured w (q_files base) cwd)) /\
            field doc "statistics" = Some (JStr (captured w (q_stat base) cwd)) /\
            field doc "commits" = Some (JStr (captured w (q_log base) cwd))
        end /\
        (forall (q : list string) (e : exn),
           In q (planned base inc) -> spawn w q cwd = inl e ->
           exists msg : string, parsed doc = JDict [("error", JStr msg)])
    end.
Proof.
  pose proof (analyze_call w base inc N wd) as Hcall.
  destruct (resolved_cwd w wd) as [e0|cwd];
    eexists; unfold outcome; rewrite Hcall; cbn [fst].
  - split; reflexivity.
  - split; [reflexivity|]. split.
    + destruct (first_fault w _ _); [reflexivity|].
      unfold analysis_of.
      destruct (if inc then _ else _) as [[dc tr] tot]. repeat split.
    + intros q e Hq He.
      destruct (first_fault_some w _ _ q e Hq He) as [e' ->].
      now exists (str e').
Qed.

Lemma analyze_never_raises_witness :
  exists doc : document,
    outcome (analyze_file_changes no_git_world "main" true 500 None) = inr doc /\
    exists msg : string, parsed doc = JDict [("error", JStr msg)].
Proof.
  destruct (analyze_never_raises no_git_world "main" true 500 None)
    as (doc & Hdoc & _ & Hfault).
  exists doc. split; [exact Hdoc|].
  apply (Hfault (q_files "main")
           (Exception "[Errno 2] No such file or directory: 'git'")).
  - now left.
  - reflexivity.
Defined.

(** C2 as the specification words it fails when the tool starts and
    then fails: in a directory that is not a repository git exits with
    status 128, and the call returns an analysis with empty texts, not
    an error record. *)
Lemma failing_tool_counterexample :
  (exists doc : document,
     outcome (analyze_file_changes no_repo_world "main" true 500 (Some "/tmp"))
       = inr doc /\
     field doc "error" = None /\
     field doc "files_changed" = Some (JStr "")) /\
  ~ fault_gives_error no_repo_world "main" true 500 (Some "/tmp").
Proof.
  split.
  - eexists. repeat split.
  - intros H. destruct H as [msg E].
    + exists (q_files "main"), "/tmp". split; [reflexivity|].
      split; [now left|]. cbn. discriminate.
    + vm_compute in E. discriminate.
Qed.

(** C3, amended.  Every record of [analyze_file_changes] without an
    [error] field has exactly the fields [base_branch], [files_changed],
    [statistics], [commits], [diff], [truncated], [total_diff_lines] and
    [_debug], in this order.  The directory the call worked in is the
    string stored under [cwd] inside [_debug]; the record has no
    [working_directory] field. *)
Theorem analysis_record_fields (w : world) (base : string) (inc : bool) (N : Z)
    (wd : option string) (doc : document) :
  outcome (analyze_file_changes w base inc N wd) = inr doc ->
  field doc "error" = None ->
  keys doc
    = ["base_branch"; "files_changed"; "statistics"; "commits"; "diff";
       "truncated"; "total_diff_lines"; "_debug"] /\
  (exists cwd : string,
     resolved_cwd w wd = inr cwd /\
     field doc "_debug" = Some (JDict [("cwd", JStr cwd)])) /\
  field doc "working_directory" = None /\
  field doc "base_branch" = Some (JStr base) /\
  exists (files stats commits diff : string) (truncated : bool) (total : Z),
    field doc "files_changed" = Some (JStr files) /\
    field doc "statistics" = Some (JStr stats) /\
    field doc "commits" = Some (JStr commits) /\
    field doc "diff" = Some (JStr diff) /\
    field doc "truncated" = Some (JBool truncated) /\
    field doc "total_diff_lines" = Some (JInt total).
Proof.
  unfold outcome. rewrite analyze_call.
  destruct (resolved_cwd w wd) as [e0|cwd]; cbn [fst];
    [intros [= <-]; discriminate|].
  destruct (first_fault w _ _); intros [= <-]; [discriminate|].
  intros _. unfold analysis_of.
  destruct (if inc then _ else _) as [[dc tr] tot].
  split; [reflexivity|]. split; [now exists cwd|].
  repeat split. now eexists _, _, _, _, _, _.
Qed.

Lemma analysis_record_fields_witness :
  exists doc : document,
    outcome (analyze_file_changes repo_world "main" true 500 None) = inr doc /\
    field doc "_debug" = Some (JDict [("cwd", JStr "/home/dev/project")]) /\
    field doc "working_directory" = None.
Proof.
  eexists. split; [reflexivity|].
  match goal with
  | |- field ?d _ = _ /\ _ =>
      destruct (analysis_record_fields repo_world "main" true 500 None d
                  eq_refl eq_refl) as (_ & (cwd & Hcwd & Hdebug) & Hwd & _)
  end.
  injection Hcwd as <-.
  split; [exact Hdebug | exact Hwd].
Defined.

(** C3 as the specification words it fails: a successful record has no
    field named [working_directory]. *)
Lemma working_directory_counterexample :
  (exists doc : document,
     outcome (analyze_file_changes repo_world "main" true 500 None) = inr doc /\
     field doc "error" = None /\
     field doc "working_directory" = None /\
     field doc "_debug" = Some (JDict [("cwd", JStr "/home/dev/project")])) /\
  ~ has_working_directory repo_world "main" true 500 None.
Proof.
  split.
  - eexists. repeat split.
  - intros H. destruct (H _ eq_refl eq_refl) as (cwd & _ & K). discriminate K.
Qed.

(** C7.  A call with [include_diff = false] starts only the name-status,
    stat and log queries (up to the first that cannot be started, and
    none when the directory to work in cannot be found), so the
    full-diff query is never started; the call is the same however that
    query would have behaved, in whatever directory; and the record
    returned is an error record or has the placeholder as its [diff]
    field, the latter whenever the three queries could be started. *)
Theorem no_diff_query_without_include_diff (w : world) (base : string) (N : Z)
    (wd : option string) :
  runs (asked (analyze_file_changes w base false N wd))
    = match resolved_cwd w wd with
      | inl _ => []
      | inr cwd =>
          map (fun q => (q, cwd))
            (until_fault w cwd
               [ ["git"; "diff"; "--name-status"; base ++ "...HEAD"];
                 ["git"; "diff"; "--stat"; base ++ "...HEAD"];
                 ["git"; "log"; "--oneline"; base ++ "..HEAD"] ])
      end /\
  (forall c : string,
     ~ In (["git"; "diff"; base ++ "...HEAD"], c)
          (runs (asked (analyze_file_changes w base false N wd)))) /\
  (forall (c : string) (r : exn + CompletedProcess),
     call (analyze_file_changes
             (with_query w ["git"; "diff"; base ++ "...HEAD"] c r) base false N wd)
       = call (analyze_file_changes w base false N wd)) /\
  exists doc : document,
    outcome (analyze_file_changes w base false N wd) = inr doc /\
    match resolved_cwd w wd with
    | inl e => parsed doc = JDict [("error", JStr (str e))]
    | inr cwd =>
        match first_fault w cwd (planned base false) with
        | Some e => parsed doc = JDict [("error", JStr (str e))]
        | None => field doc "diff" = Some (JStr placeholder)
        end
    end /\
    (field doc "diff"
       = Some (JStr "Diff not included (set include_diff=true to see full diff)")
     \/ exists msg : string, parsed doc = JDict [("error", JStr msg)]).
Proof.
  split; [apply asked_runs|]. split; [|split].
  - intros c H. rewrite asked_runs in H.
    destruct (resolved_cwd w wd) as [e0|cwd]; [contradiction|].
    apply in_map_iff in H. destruct H as (q & [= -> _] & H).
    apply until_fault_incl in H. cbn in H.
    repeat (destruct H as [H|H]; [discriminate H|]). exact H.
  - intros c r. rewrite !analyze_call.
    change (resolved_cwd (with_query w _ c r) wd) with (resolved_cwd w wd).
    change (resolution_events (with_query w _ c r) wd)
      with (resolution_events w wd).
    destruct (resolved_cwd w wd) as [e0|cwd]; [reflexivity|].
    assert (S : forall q, length q = 4 ->
                spawn (with_query w ["git"; "diff"; base ++ "...HEAD"] c r) q cwd
                  = spawn w q cwd).
    { intros q Hq. cbn. destruct (list_eq_dec string_dec q _) as [->|_];
        [discriminate Hq | reflexivity]. }
    unfold analysis_of, captured, planned, first_fault, until_fault,
      q_files, q_stat, q_log.
    rewrite !S by reflexivity. reflexivity.
  - pose proof (analyze_call w base false N wd) as Hcall.
    destruct (resolved_cwd w wd) as [e0|cwd].
    + eexists. unfold outcome. rewrite Hcall. cbn [fst].
      split; [reflexivity|]. split; [reflexivity|]. right. now exists (str e0).
    + destruct (first_fault w cwd (planned base false)) as [e|];
        eexists; unfold outcome; rewrite Hcall; cbn [fst];
        (split; [reflexivity|]); (split; [reflexivity|]).
      * right. now exists (str e).
      * now left.
Qed.

(** C8.  A call with [include_diff = true] starts, in the resolved
    directory and in this order, [git diff --name-status <base>...HEAD],
    [git diff --stat <base>...HEAD], [git diff <base>...HEAD] and
    [git log --oneline <base>..HEAD], stopping after the first that
    cannot be started (and starting none when the directory to work in
    cannot be found); it starts nothing else, and all four when none of
    them faults.  The three diff queries use the three-dot range, the
    log the two-dot range. *)
Theorem analyze_query_shapes (w : world) (base : string) (N : Z) (wd : option string) :
  let four :=
    [ ["git"; "diff"; "--name-status"; base ++ "...HEAD"];
      ["git"; "diff"; "--stat"; base ++ "...HEAD"];
      ["git"; "diff"; base ++ "...HEAD"];
      ["git"; "log"; "--oneline"; base ++ "..HEAD"] ] in
  runs (asked (analyze_file_changes w base true N wd))
    = match resolved_cwd w wd with
      | inl _ => []
      | inr cwd => map (fun q => (q, cwd)) (until_fault w cwd four)
      end /\
  (forall cwd : string,
     resolved_cwd w wd = inr cwd ->
     first_fault w cwd four = None ->
     runs (asked (analyze_file_changes w base true N wd))
       = map (fun q => (q, cwd)) four).
Proof.
  intros four. split.
  - apply asked_runs.
  - intros cwd Hcwd H. rewrite asked_runs, Hcwd.
    change (planned base true) with four. now rewrite until_fault_all.
Qed.

Lemma analyze_query_shapes_witness :
  runs (asked (analyze_file_changes repo_world "main" true 500 None))
    = [ (["git"; "diff"; "--name-status"; "main...HEAD"], "/home/dev/project");
        (["git"; "diff"; "--stat"; "main...HEAD"], "/home/dev/project");
        (["git"; "diff"; "main...HEAD"], "/home/dev/project");
        (["git"; "log"; "--oneline"; "main..HEAD"], "/home/dev/project") ].
Proof.
  apply (proj2 (analyze_query_shapes repo_world "main" 500 None)
           "/home/dev/project"); reflexivity.
Defined.

(** C9, amended.  With no [working_directory] given, resolving the
    directory first asks the session for its roots and yields the
    declared root when there is one.  Otherwise (the query raises, no
    root is listed, the root has no path or an empty one) nothing is
    raised by that query and the step asks the process for its current
    directory, outside the inner handler: it yields that directory, or
    raises what [os.getcwd()] raises.  The queries of the call run in
    the directory found; when none is found no query is started and the
    call returns the error record. *)
Theorem resolve_cwd_falls_back (w : world) (base : string) (inc : bool) (N : Z) :
  let resolved := match declared_root w with
                  | Some root => inr root
                  | None => getcwd w
                  end in
  let questions := EvListRoots :: match declared_root w with
                                  | Some _ => []
                                  | None => [EvGetcwd]
                                  end in
  (forall t : trace, resolve_cwd w None t = (resolved, (t ++ questions)%list)) /\
  (exists rest : trace,
     asked (analyze_file_changes w base inc N None) = (questions ++ rest)%list /\
     match resolved with
     | inr cwd => Forall (fun ev => exists q, ev = EvRun q cwd) rest
     | inl e =>
         rest = [] /\
         outcome (analyze_file_changes w base inc N None)
           = inr (json_dumps (JDict [("error", JStr (str e))]))
     end) /\
  (declared_root w = None <->
     match list_roots w with
     | inr (Some path :: _) => path = ""
     | _ => True
     end).
Proof.
  intros resolved questions. split; [|split].
  - intros t. now rewrite resolve_cwd_run.
  - unfold asked, outcome. rewrite analyze_call.
    change (resolved_cwd w None) with resolved.
    change (resolution_events w None) with questions.
    destruct resolved as [e|cwd]; cbn [fst snd].
    + exists []. now rewrite app_nil_r.
    + eexists. split; [reflexivity|].
      apply Forall_forall. intros ev [q [<- _]]%in_map_iff. now exists q.
  - unfold declared_root.
    destruct (list_roots w) as [e|[|[p|] rest]]; try tauto.
    destruct (String.eqb_spec p ""); split; intros; congruence.
Qed.

(** C9 as the specification words it fails: with no session and a
    process whose current directory is gone, the resolution step asks
    for the roots, then for the directory, and raises; the call starts
    no query and returns the error record. *)
Lemma resolution_raises_counterexample :
  (resolve_cwd gone_world None []
     = (inl (Exception "[Errno 2] No such file or directory"),
        [EvListRoots; EvGetcwd]) /\
   call (analyze_file_changes gone_world "main" true 500 None)
     = (inr (json_dumps
               (JDict [("error", JStr "[Errno 2] No such file or directory")])),
        [EvListRoots; EvGetcwd])) /\
  ~ resolution_never_raises gone_world.
Proof.
  split; [split; reflexivity|].
  intros H. destruct (H []) as (cwd & t' & E). discriminate E.
Qed.

(** ** More on the template tools *)

Lemma dict_get_listed {V : Type} (d : list (string * V)) (key : string) (v : V) :
  Py.dict_get d key v = v \/ In (key, Py.dict_get d key v) d.
Proof.
  induction d as [|[k x] d IH]; cbn; [now left|].
  destruct (String.eqb_spec k key) as [->|_]; [right; now left|].
  destruct IH as [IH|IH]; [now left | right; now right].
Qed.

(** X1.  Whatever the summary and the change type, [suggest_template]
    recommends the catalog entry whose file name is the one the
    classifier yields, with the label [DEFAULT_TEMPLATES] gives that
    file; the first entry kept as default of the search is never what
    decides. *)
Theorem suggest_template_follows_classifier (w : world)
    (changes_summary change_type : string) :
  exists (doc : document) (label : string),
    outcome (suggest_template w changes_summary change_type) = inr doc /\
    In (classify change_type, label) DEFAULT_TEMPLATES /\
    field doc "recommended_template"
      = Some (JDict
                [ ("filename", JStr (classify change_type));
                  ("type", JStr label);
                  ("content",
                    JStr match file_text w
                                 (TEMPLATES_DIR w ++ "/" ++ classify change_type) with
                         | inr text => text
                         | inl _ => ""
                         end) ]).
Proof.
  exists (json_dumps
            (JDict
               [ ("recommended_template", entry_of w (chosen (classify change_type)));
                 ("reasoning", JStr (reasoning_of changes_summary change_type));
                 ("template_content",
                   JStr (content_of w (fst (chosen (classify change_type)))));
                 ("usage_hint", JStr usage_hint) ])),
    (snd (chosen (classify change_type))).
  unfold outcome, call. rewrite suggest_template_run. cbn [fst].
  pose proof (chosen_file _ (classify_in_catalog change_type)) as Hf.
  pose proof (chosen_in (classify change_type)) as Hin.
  unfold entry_of, content_of, TEMPLATES_DIR.
  destruct (chosen (classify change_type)) as [f l]. cbn [fst snd] in *.
  rewrite Hf in *. split; [reflexivity|]. split; [exact Hin | reflexivity].
Qed.

(** X2.  Every template of the catalog can be recommended: for each row
    of [DEFAULT_TEMPLATES] there is a change type for which
    [suggest_template], under any summary and in any world, recommends
    the entry of that row. *)
Theorem every_template_reachable (filename label : string) :
  In (filename, label) DEFAULT_TEMPLATES ->
  exists change_type : string,
    forall (w : world) (changes_summary : string),
    exists doc : document,
      outcome (suggest_template w changes_summary change_type) = inr doc /\
      field doc "recommended_template"
        = Some (JDict
                  [ ("filename", JStr filename);
                    ("type", JStr label);
                    ("content",
                      JStr match file_text w (TEMPLATES_DIR w ++ "/" ++ filename) with
                           | inr text => text
                           | inl _ => ""
                           end) ]).
Proof.
  intros H.
  assert (K : forall key : string,
            chosen (classify key) = (filename, label) ->
            exists change_type : string,
              forall (w : world) (changes_summary : string),
              exists doc : document,
                outcome (suggest_template w changes_summary change_type) = inr doc /\
                field doc "recommended_template" = Some (entry_of w (filename, label))).
  { intros key E. exists key. intros w summary. eexists. unfold outcome, call.
    rewrite suggest_template_run, E. split; reflexivity. }
  cbn [DEFAULT_TEMPLATES In] in H.
  destruct H as [H|[H|[H|[H|[H|[H|[H|[]]]]]]]]; injection H as <- <-.
  - now apply (K "bug").
  - now apply (K "feature").
  - now apply (K "docs").
  - now apply (K "refactor").
  - now apply (K "test").
  - now apply (K "performance").
  - now apply (K "security").
Qed.

Lemma every_template_reachable_witness :
  exists change_type : string,
    forall (w : world) (changes_summary : string),
    exists doc : document,
      outcome (suggest_template w changes_summary change_type) = inr doc /\
      field doc "recommended_template"
        = Some (JDict
                  [ ("filename", JStr "security.md");
                    ("type", JStr "Security");
                    ("content",
                      JStr match file_text w (TEMPLATES_DIR w ++ "/" ++ "security.md") with
                           | inr text => text
                           | inl _ => ""
                           end) ]).
Proof.
  apply (every_template_reachable "security.md" "Security"). in_list.
Defined.

(** X3.  The synonym table decides the classification by exact match on
    the normalized change type: a change type whose normalized form is
    listed gets the listed file, and a change type classified as
    anything but the feature template has its normalized form listed
    with that file.  No other spelling (an inner space, a plural, a
    prefix) reaches a template other than the feature one. *)
Theorem classify_exact_match (change_type : string) :
  (forall file : string,
     In (Py.strip (Py.lower change_type), file) TYPE_MAPPING ->
     classify change_type = file) /\
  (classify change_type <> "feature.md" ->
   In (Py.strip (Py.lower change_type), classify change_type) TYPE_MAPPING).
Proof.
  unfold classify. split.
  - intros file H. cbn [TYPE_MAPPING In] in H.
    repeat (destruct H as [H|H]; [injection H as <- <-; reflexivity|]).
    contradiction.
  - intros H.
    destruct (dict_get_listed TYPE_MAPPING (Py.strip (Py.lower change_type))
                "feature.md") as [E|E]; [contradiction | exact E].
Qed.

Lemma classify_exact_match_witness :
  classify " Cleanup" = "refactor.md" /\
  In ("docs", classify "DOCS") TYPE_MAPPING.
Proof.
  split.
  - apply (proj1 (classify_exact_match " Cleanup") "refactor.md"). in_list.
  - apply (proj2 (classify_exact_match "DOCS")). discriminate.
Defined.

(** X4.  The two template tools ask the world for nothing but the text
    of the seven template files, each once and in the order of the
    table; they start no process and do not ask the session or the
    process for a directory.  [suggest_template] reads all seven files
    whatever template it ends up recommending. *)
Theorem template_tools_only_read (w : world) (changes_summary change_type : string) :
  let reads :=
    map (fun name => EvReadText (TEMPLATES_DIR w ++ "/" ++ name))
      ["bug.md"; "feature.md"; "docs.md"; "refactor.md"; "test.md";
       "performance.md"; "security.md"] in
  asked (get_pr_templates w) = reads /\
  asked (suggest_template w changes_summary change_type) = reads /\
  runs (asked (suggest_template w changes_summary change_type)) = [].
Proof.
  intros reads. unfold asked, call.
  rewrite get_pr_templates_run, suggest_template_run. cbn [snd app].
  repeat split.
Qed.

(** ** More on the diff analysis *)

(** X5.  A call given a non-empty [working_directory] works there: it
    asks neither the session for its roots nor the process for its
    directory, every query runs in the given directory, and a successful
    record reports that directory. *)
Theorem given_directory_is_used (w : world) (base : string) (inc : bool) (N : Z)
    (dir : string) :
  dir <> "" ->
  asked (analyze_file_changes w base inc N (Some dir))
    = map (fun q => EvRun q dir) (until_fault w dir (planned base inc)) /\
  (forall doc : document,
     outcome (analyze_file_changes w base inc N (Some dir)) = inr doc ->
     field doc "error" = None ->
     field doc "_debug" = Some (JDict [("cwd", JStr dir)])).
Proof.
  intros Hd. unfold asked, outcome. rewrite analyze_call.
  unfold resolved_cwd, resolution_events.
  destruct (String.eqb_spec dir ""); [contradiction|]. cbn [fst snd app].
  split; [reflexivity|].
  destruct (first_fault w dir _); intros doc [= <-]; [discriminate|].
  intros _. unfold analysis_of.
  destruct (if inc then _ else _) as [[dc tr] tot]. reflexivity.
Qed.

Lemma given_directory_is_used_witness :
  asked (analyze_file_changes repo_world "main" false 500 (Some "/work/tree"))
    = [ EvRun ["git"; "diff"; "--name-status"; "main...HEAD"] "/work/tree";
        EvRun ["git"; "diff"; "--stat"; "main...HEAD"] "/work/tree";
        EvRun ["git"; "log"; "--oneline"; "main..HEAD"] "/work/tree" ] /\
  exists doc : document,
    outcome (analyze_file_changes repo_world "main" false 500 (Some "/work/tree"))
      = inr doc /\
    field doc "_debug" = Some (JDict [("cwd", JStr "/work/tree")]).
Proof.
  destruct (given_directory_is_used repo_world "main" false 500 "/work/tree")
    as [Hasked Hdoc]; [discriminate|].
  split; [exact Hasked|].
  eexists. split; [reflexivity|]. apply Hdoc; reflexivity.
Defined.

(** X6.  A call given the empty string as [working_directory] treats it
    as no directory but does not ask the session: it asks the process
    for its current directory and runs every query there (none when the
    process has no current directory any more). *)
Theorem empty_directory_uses_getcwd (w : world) (base : string) (inc : bool) (N : Z) :
  asked (analyze_file_changes w base inc N (Some ""))
    = EvGetcwd
        :: match getcwd w with
           | inr dir => map (fun q => EvRun q dir) (until_fault w dir (planned base inc))
           | inl _ => []
           end.
Proof.
  unfold asked. rewrite analyze_call.
  change (resolved_cwd w (Some "")) with (getcwd w).
  now destruct (getcwd w).
Qed.

Lemma first_fault_same (w w' : world) (cwd : string) (qs : list (list string)) :
  (forall q c, same_stdout (spawn w q c) (spawn w' q c)) ->
  first_fault w cwd qs = first_fault w' cwd qs /\
  until_fault w cwd qs = until_fault w' cwd qs.
Proof.
  intros H. induction qs as [|q qs [IH1 IH2]]; cbn; [now split|].
  specialize (H q cwd). unfold same_stdout in H.
  destruct (spawn w q cwd), (spawn w' q cwd); try contradiction.
  - subst. now split.
  - rewrite IH1, IH2. now split.
Qed.

Lemma captured_same (w w' : world) (q : list string) (cwd : string) :
  (forall q c, same_stdout (spawn w q c) (spawn w' q c)) ->
  captured w q cwd = captured w' q cwd.
Proof.
  intros H. specialize (H q cwd). unfold same_stdout, captured in *.
  destruct (spawn w q cwd), (spawn w' q cwd); try contradiction; auto.
Qed.

(** X7.  The call depends on the processes it starts only through the
    exception they raise or the text they write to standard output:
    two worlds that agree on these (and on the session roots and the
    process directory) give the same record and the same questions,
    whatever the exit statuses, the standard errors and the template
    files are. *)
Theorem analyze_reads_stdout_only (w w' : world) (base : string) (inc : bool) (N : Z)
    (wd : option string) :
  list_roots w = list_roots w' ->
  getcwd w = getcwd w' ->
  (forall q c, same_stdout (spawn w q c) (spawn w' q c)) ->
  call (analyze_file_changes w base inc N wd)
    = call (analyze_file_changes w' base inc N wd).
Proof.
  intros Hr Hc Hs. rewrite !analyze_call.
  assert (E : resolved_cwd w wd = resolved_cwd w' wd)
    by (unfold resolved_cwd, declared_root; now rewrite Hr, Hc).
  assert (Ev : resolution_events w wd = resolution_events w' wd)
    by (unfold resolution_events, declared_root; now rewrite Hr).
  rewrite E, Ev. destruct (resolved_cwd w' wd) as [e|cwd]; [reflexivity|].
  destruct (first_fault_same w w' cwd (planned base inc) Hs) as [-> ->].
  unfold analysis_of.
  now rewrite !(captured_same w w' _ _ Hs).
Qed.

Lemma analyze_reads_stdout_only_witness :
  call (analyze_file_changes no_repo_world "main" true 500 (Some "/tmp"))
    = call (analyze_file_changes
              (mkWorld (list_roots no_repo_world) (getcwd no_repo_world)
                 (fun _ _ => inr (mkCompleted 0 "" "")) (fun _ => inr "text") "/other")
              "main" true 500 (Some "/tmp")).
Proof.
  apply analyze_reads_stdout_only.
  - reflexivity.
  - reflexivity.
  - intros q c. reflexivity.
Defined.

(** X8.  Without the diff the bookkeeping fields are neutral: every
    successful record of a call with [include_diff = false] has
    [truncated = false] and [total_diff_lines = 0], whatever
    [max_diff_lines] is (also a negative one) and however large the
    diff of the repository is. *)
Theorem no_diff_no_truncation (w : world) (base : string) (N : Z) (wd : option string)
    (doc : document) :
  outcome (analyze_file_changes w base false N wd) = inr doc ->
  field doc "error" = None ->
  field doc "truncated" = Some (JBool false) /\
  field doc "total_diff_lines" = Some (JInt 0).
Proof.
  unfold outcome. rewrite analyze_call.
  destruct (resolved_cwd w wd) as [e0|cwd]; cbn [fst];
    [intros [= <-]; discriminate|].
  destruct (first_fault w _ _); intros [= <-]; [discriminate|].
  intros _. now split.
Qed.

Lemma no_diff_no_truncation_witness :
  exists doc : document,
    outcome (analyze_file_changes repo_world "main" false (-5) None) = inr doc /\
    field doc "truncated" = Some (JBool false) /\
    field doc "total_diff_lines" = Some (JInt 0).
Proof.
  eexists. split; [reflexivity|].
  apply (no_diff_no_truncation repo_world "main" (-5) None); reflexivity.
Defined.

(** X9.  When the branch has no change against the base (every query
    starts, in the directory the call resolved, and writes nothing) and
    [max_diff_lines] is not negative, the record has empty
    [files_changed], [statistics] and [commits], counts 0 diff lines and
    is not truncated; its [diff] is empty, or the placeholder when the
    diff was not asked for. *)
Theorem unchanged_repository (w : world) (base : string) (inc : bool) (N : Z)
    (wd : option string) (cwd : string) :
  (0 <= N)%Z ->
  resolved_cwd w wd = inr cwd ->
  first_fault w cwd (planned base inc) = None ->
  (forall q, In q (planned base inc) -> captured w q cwd = "") ->
  exists doc : document,
    outcome (analyze_file_changes w base inc N wd) = inr doc /\
    field doc "files_changed" = Some (JStr "") /\
    field doc "statistics" = Some (JStr "") /\
    field doc "commits" = Some (JStr "") /\
    field doc "diff" = Some (JStr (if inc then "" else placeholder)) /\
    field doc "truncated" = Some (JBool false) /\
    field doc "total_diff_lines" = Some (JInt 0).
Proof.
  intros HN Hcwd Hok Hout. eexists. unfold outcome.
  rewrite analyze_call, Hcwd, Hok. cbn [fst]. split; [reflexivity|].
  unfold analysis_of.
  assert (Hf : captured w (q_files base) cwd = "")
    by (apply Hout; destruct inc; in_list).
  assert (Hs : captured w (q_stat base) cwd = "")
    by (apply Hout; destruct inc; in_list).
  assert (Hl : captured w (q_log base) cwd = "")
    by (apply Hout; destruct inc; in_list).
  destruct inc.
  - assert (Hd : captured w (q_diff base) cwd = "")
      by (apply Hout; in_list).
    rewrite Hf, Hs, Hl, Hd. unfold bound_diff. cbn [Py.splitlines length Z.of_nat].
    destruct (Z.gtb_spec 0 N); [lia|]. repeat split.
  - rewrite Hf, Hs, Hl. repeat split.
Qed.

Lemma unchanged_repository_witness :
  exists doc : document,
    outcome (analyze_file_changes unchanged_world "main" true 500 None) = inr doc /\
    field doc "files_changed" = Some (JStr "") /\
    field doc "statistics" = Some (JStr "") /\
    field doc "commits" = Some (JStr "") /\
    field doc "diff" = Some (JStr "") /\
    field doc "truncated" = Some (JBool false) /\
    field doc "total_diff_lines" = Some (JInt 0).
Proof.
  apply (unchanged_repository unchanged_world "main" true 500 None
           "/home/dev/project").
  - lia.
  - reflexivity.
  - reflexivity.
  - intros q _. reflexivity.
Defined.

(** X10.  The size of the [diff] field is bounded by the parameter: for
    [max_diff_lines = N >= 0] the [diff] field of a record never has
    more than [N + 3] lines ([N] lines of the diff, a blank line and the
    two lines of the notice), and never more than 4 when [N = 0]. *)
Theorem diff_field_size (w : world) (base : string) (N : Z) (wd : option string)
    (doc : document) (d : string) :
  (0 <= N)%Z ->
  outcome (analyze_file_changes w base true N wd) = inr doc ->
  field doc "diff" = Some (JStr d) ->
  (Z.of_nat (length (Py.splitlines d)) <= Z.max 4 (N + 3))%Z.
Proof.
  intros HN. unfold outcome. rewrite analyze_call.
  destruct (resolved_cwd w wd) as [e0|cwd]; cbn [fst];
    [intros [= <-]; discriminate|].
  destruct (first_fault w _ _); intros [= <-]; [discriminate|].
  unfold analysis_of, bound_diff.
  set (text := captured w (q_diff base) cwd).
  destruct (Z.gtb_spec (Z.of_nat (length (Py.splitlines text))) N) as [H|H];
    intros [= <-]; [|lia].
  rewrite truncated_lines
    by (rewrite slice_to_firstn; apply Forall_firstn, splitlines_no_break).
  pose proof (slice_to_length N (Py.splitlines text)) as Hlen.
  unfold kept_count in Hlen. destruct (Z.ltb_spec N 0); [lia|].
  rewrite !length_app. unfold notice_lines.
  destruct (Py.slice_to N (Py.splitlines text)); cbn [length] in *; lia.
Qed.

Lemma diff_field_size_witness :
  (Z.of_nat (length (Py.splitlines ("+a" ++ truncation_notice 1 3)))
     <= Z.max 4 (1 + 3))%Z.
Proof.
  apply (diff_field_size repo_world "main" 1 None
           (Document (analysis_of repo_world "main" true 1 "/home/dev/project"))
           ("+a" ++ truncation_notice 1 3)).
  - lia.
  - reflexivity.
  - reflexivity.
Defined.

(** X11.  The notice tells the truth about how to see more: when a
    record reports [total_diff_lines = L], the same call with
    [max_diff_lines] set to [L] or more returns the whole diff text,
    not truncated, and reports the same total. *)
Theorem asking_for_all_lines (w : world) (base : string) (N M L : Z)
    (wd : option string) (doc : document) :
  outcome (analyze_file_changes w base true N wd) = inr doc ->
  field doc "total_diff_lines" = Some (JInt L) ->
  (L <= M)%Z ->
  exists (doc' : document) (cwd : string),
    resolved_cwd w wd = inr cwd /\
    outcome (analyze_file_changes w base true M wd) = inr doc' /\
    field doc' "truncated" = Some (JBool false) /\
    field doc' "total_diff_lines" = Some (JInt L) /\
    field doc' "diff" = Some (JStr (captured w (q_diff base) cwd)) /\
    Z.of_nat (length (Py.splitlines (captured w (q_diff base) cwd))) = L.
Proof.
  unfold outcome. rewrite !analyze_call.
  destruct (resolved_cwd w wd) as [e0|cwd]; cbn [fst];
    [intros [= <-]; discriminate|].
  destruct (first_fault w _ _); intros [= <-]; [discriminate|].
  unfold analysis_of, bound_diff.
  set (text := captured w (q_diff base) cwd).
  intros HL HM.
  assert (E : Z.of_nat (length (Py.splitlines text)) = L)
    by (destruct (Z.of_nat (length (Py.splitlines text)) >? N)%Z;
        now injection HL).
  rewrite E. eexists _, cwd. split; [reflexivity|]. split; [reflexivity|].
  destruct (Z.gtb_spec L M); [lia|]. repeat split. exact E.
Qed.

Lemma asking_for_all_lines_witness :
  exists doc' : document,
    outcome (analyze_file_changes repo_world "main" true 3 None) = inr doc' /\
    field doc' "truncated" = Some (JBool false) /\
    field doc' "total_diff_lines" = Some (JInt 3) /\
    field doc' "diff" = Some (JStr three_lines).
Proof.
  destruct (asking_for_all_lines repo_world "main" 1 3 3 None
              (Document (analysis_of repo_world "main" true 1 "/home/dev/project")))
    as (doc' & cwd & H0 & H1 & H2 & H3 & H4 & _).
  - reflexivity.
  - reflexivity.
  - lia.
  - injection H0 as <-. exists doc'. repeat split; assumption.
Defined.

(** X12.  The truncation policy at a bound that is not negative.  For a
    call with [include_diff = true] and [max_diff_lines = N >= 0] in
    which every query could be started, and with [L] the number of lines
    [str.splitlines] finds in the text of the diff: the record has
    [truncated = (L > N)] and [total_diff_lines = L].  When [L <= N] the
    [diff] field is the text of the diff itself.  When [L > N] it is the
    first [N] of those lines joined by line feeds and followed by the
    notice; read line by line, it is those [N] lines, blank lines, and
    the two lines of the notice that cite [N] and [L]. *)
Theorem nonnegative_bound_respected (w : world) (base : string) (N : Z)
    (wd : option string) (cwd : string) :
  (0 <= N)%Z ->
  resolved_cwd w wd = inr cwd ->
  first_fault w cwd (planned base true) = None ->
  diff_bounded_by (fun N L => Z.min L N) w base N wd cwd.
Proof.
  intros HN Hcwd Hok. unfold diff_bounded_by, outcome.
  rewrite analyze_call, Hcwd, Hok. cbn [fst]. unfold analysis_of.
  destruct (bound_diff_shows (captured w (q_diff base) cwd) N) as (d & -> & Hd).
  exists (json_dumps
            (JDict
               [ ("base_branch", JStr base);
                 ("files_changed", JStr (captured w (q_files base) cwd));
                 ("statistics", JStr (captured w (q_stat base) cwd));
                 ("commits", JStr (captured w (q_log base) cwd));
                 ("diff", JStr d);
                 ("truncated",
                   JBool (Z.of_nat (length (Py.splitlines
                            (captured w (q_diff base) cwd))) >? N)%Z);
                 ("total_diff_lines",
                   JInt (Z.of_nat (length (Py.splitlines
                            (captured w (q_diff base) cwd)))));
                 ("_debug", JDict [("cwd", JStr cwd)]) ])), d.
  repeat split.
  unfold kept_count in Hd. destruct (Z.ltb_spec N 0); [lia | exact Hd].
Qed.

Lemma nonnegative_bound_respected_witness :
  diff_bounded_by (fun N L => Z.min L N) repo_world "main" 2 None
    "/home/dev/project".
Proof.
  apply (nonnegative_bound_respected repo_world "main" 2 None "/home/dev/project").
  - lia.
  - reflexivity.
  - reflexivity.
Defined.
